(** * The HPy call bridge: ctx_call.c and ctx_meth.c

    A shallow embedding of the outbound call adapter
    ([ctx_CallTupleDict], [ctx_Call], [ctx_CallMethod], from
    hpy/devel/src/runtime/ctx_call.c) and of the inbound trampoline
    dispatcher ([ctx_CallRealFunctionFromTrampoline], from
    hpy/universal/src/ctx_meth.c).

    The C functions are glue: everything they do is a call into the host
    runtime (CPython), into the HPy context, or into a native extension
    function.  Each such call is an event of type [hostE]; a C function
    becomes a finite tree of events ([prog]), written with monadic
    notation so that it reads like the C text.  A [Host] answers events
    from a state; [run] executes a tree against a host and records what
    was asked and what was answered.

    First the embedding of the two C files, then the vocabulary in which
    their contracts are stated and a small concrete host on which every
    definition evaluates, then the properties. *)

From stdpp Require Import base list strings.
From Stdlib Require Import ZArith Lia.

Local Open Scope Z_scope.

(** ** Data *)

(** [PyObject *]: a native reference is a machine address; [NULL] is 0. *)
Definition PyObject := Z.
Definition NULL : PyObject := 0.

(** Modelled from the spec: hpy.h is not among the sources.  The spec
    asks for an opaque handle with a null sentinel distinguishable from
    every valid handle; as in hpy.h the handle is a one-field struct,
    [HPy_NULL] has the field 0 and [HPy_IsNull] tests it. *)
Record HPy : Type := mkHPy { _i : Z }.
Definition HPy_NULL : HPy := {| _i := 0 |}.
Definition HPy_IsNull (h : HPy) : bool := _i h =? 0.

(** Modelled from the spec: the context struct is declared in hpy.h.  The
    only field these functions read is the handle of the TypeError type. *)
Record HPyContext : Type := mkHPyContext { h_TypeError : HPy }.

(** [size_t] arithmetic wraps modulo 2^64; on the platforms where it has
    64 bits a pointer and an [HPy] take 8 bytes. *)
Definition size_t_wrap (z : Z) : Z := z mod 2 ^ 64.
Definition sizeof_PyObject_ptr : Z := 8.
Definition sizeof_HPy : Z := 8.

(** C truth values: [!x] and the [int] value of a comparison. *)
Definition c_not (x : Z) : bool := x =? 0.
Definition c_int (b : bool) : Z := if b then 1 else 0.

(** ** Events: every call that leaves the two C files

    The index is the C return type.  An array argument is the list of
    the elements readable through the pointer (the null pointer has
    none); a function pointer is its address. *)
Inductive hostE : Type → Type :=
  (* the HPy context API *)
  | HPyTuple_Check (ctx : HPyContext) (h : HPy) : hostE Z
  | HPyDict_Check (ctx : HPyContext) (h : HPy) : hostE Z
  | HPyErr_SetString (ctx : HPyContext) (h_type : HPy) (message : string) : hostE unit
  | HPyTuple_FromArray (ctx : HPyContext) (items : list HPy) (n : Z) : hostE HPy
  | HPy_Close (ctx : HPyContext) (h : HPy) : hostE unit
  (* the CPython API *)
  | PyObject_CallObject (callable args : PyObject) : hostE PyObject
  | PyObject_Call (callable args kw : PyObject) : hostE PyObject
  | _PyObject_Vectorcall (callable : PyObject) (args : list PyObject)
                         (nargsf : Z) (kwnames : PyObject) : hostE PyObject
  | PyObject_Vectorcall (callable : PyObject) (args : list PyObject)
                        (nargsf : Z) (kwnames : PyObject) : hostE PyObject
  | PyObject_VectorcallMethod (name : PyObject) (args : list PyObject)
                              (nargsf : Z) (kwnames : PyObject) : hostE PyObject
  | PyObject_GetAttr (o name : PyObject) : hostE PyObject
  | Py_DECREF (o : PyObject) : hostE unit
  | PyTuple_Check (o : PyObject) : hostE Z
  | PyTuple_GET_SIZE (o : PyObject) : hostE Z
  | PyTuple_GET_ITEM (o : PyObject) (i : Z) : hostE PyObject
  (* the native extension function behind [func], by calling convention *)
  | HPyMeth_noargs (func : Z) (ctx : HPyContext) (self : HPy) : hostE HPy
  | HPyMeth_o (func : Z) (ctx : HPyContext) (self arg : HPy) : hostE HPy
  | HPyMeth_varargs (func : Z) (ctx : HPyContext) (self : HPy)
                    (args : list HPy) (nargs : Z) : hostE HPy.

(** The events that run a callable of the host runtime. *)
Definition is_call_primitive {X} (e : hostE X) : bool :=
  match e with
  | PyObject_CallObject _ _ | PyObject_Call _ _ _
  | _PyObject_Vectorcall _ _ _ _ | PyObject_Vectorcall _ _ _ _
  | PyObject_VectorcallMethod _ _ _ _ => true
  | _ => false
  end.

(** The events that enter a native extension function. *)
Definition is_native_call {X} (e : hostE X) : bool :=
  match e with
  | HPyMeth_noargs _ _ _ | HPyMeth_o _ _ _ _ | HPyMeth_varargs _ _ _ _ _ => true
  | _ => false
  end.

(** ** Programs: finite trees of events *)

Inductive prog (R : Type) : Type :=
  | Ret (r : R)
  | Vis {X : Type} (e : hostE X) (k : X → prog R)
  | Abort                        (* abort(), or a failed assert *)
  | UB.                          (* an access outside an array *)
Arguments Ret {R} r.
Arguments Vis {R X} e k.
Arguments Abort {R}.
Arguments UB {R}.

Fixpoint bind {A B} (p : prog A) (f : A → prog B) : prog B :=
  match p with
  | Ret a => f a
  | Vis e k => Vis e (λ x, bind (k x) f)
  | Abort => Abort
  | UB => UB
  end.

#[global] Instance prog_ret : MRet prog := @Ret.
#[global] Instance prog_bind : MBind prog := λ A B f p, bind p f.

Definition call {X} (e : hostE X) : prog X := Vis e Ret.

(** [a[i] = v], defined only inside the array. *)
Definition store {T} (a : list T) (i : nat) (v : T) : prog (list T) :=
  if decide (i < length a)%nat then Ret (<[i := v]> a) else UB.

(** [for (i = start; i < start + count; i++) s = body(i, s);] *)
Fixpoint for_loop {S} (count : nat) (i : nat) (body : nat → S → prog S) (s : S)
  : prog S :=
  match count with
  | O => Ret s
  | Datatypes.S count' => s' ← body i s; for_loop count' (Datatypes.S i) body s'
  end.

(** ** What the C files take from their headers and their build *)

(** Modelled from the spec: handles.h, ctx_meth.h and the build flags are
    not among the sources.  [_h2py] and [_py2h] are the two handle
    translations (handle to native reference, which borrows and never
    fails, and back); [PY_VERSION_HEX] and [NDEBUG] are fixed when the
    file is compiled; the three enumerators of [HPyMeth_Signature] are the
    labels of the dispatcher's switch; [uninit] is what a fresh stack cell
    holds.  [callable] is the identifier that the branch of [ctx_Call]
    for hosts older than 3.9 names: [ctx_Call] binds [h_callable] and no
    [callable], so there it is a free name of the translation unit. *)
Class Platform : Type := {
  _h2py : HPy → PyObject;
  _py2h : PyObject → HPy;
  PY_VERSION_HEX : Z;
  NDEBUG : bool;
  HPyMeth_NOARGS : Z;
  HPyMeth_O : Z;
  HPyMeth_VARARGS : Z;
  uninit : Z;
  callable : HPy;
}.

Section Bridge.
Context {P : Platform}.

(** [assert(c)]: not evaluated under NDEBUG, otherwise aborts on 0. *)
Definition assert (c : prog Z) : prog unit :=
  if NDEBUG then mret tt
  else x ← c; if c_not x then Abort else mret tt.

(** [a && b] with [b] evaluated only when [a] holds. *)
Definition and_then (a : bool) (b : prog bool) : prog bool :=
  if a then b else mret false.

(** [(T * ) alloca(bytes)]: the cells of [size] bytes that fit in [bytes],
    of indeterminate content. *)
Definition alloca {T} (cell : Z → T) (size : Z) (bytes : Z) : list T :=
  replicate (Z.to_nat (bytes / size)) (cell uninit).

(** *** ctx_call.c *)

Definition ctx_CallTupleDict (ctx : HPyContext) (callable args kw : HPy)
  : prog HPy :=
  bad_args ← and_then (negb (HPy_IsNull args))
                      (c ← call (HPyTuple_Check ctx args); mret (c_not c));
  if bad_args : bool then
    call (HPyErr_SetString ctx (h_TypeError ctx)
            "HPy_CallTupleDict requires args to be a tuple or null handle");;
    mret HPy_NULL
  else
  bad_kw ← and_then (negb (HPy_IsNull kw))
                    (c ← call (HPyDict_Check ctx kw); mret (c_not c));
  if bad_kw : bool then
    call (HPyErr_SetString ctx (h_TypeError ctx)
            "HPy_CallTupleDict requires kw to be a dict or null handle");;
    mret HPy_NULL
  else
  obj ← (if HPy_IsNull kw then
           call (PyObject_CallObject (_h2py callable) (_h2py args))
         else if negb (HPy_IsNull args) then
           call (PyObject_Call (_h2py callable) (_h2py args) (_h2py kw))
         else
           let items : list HPy := [] in
           empty_tuple ← call (HPyTuple_FromArray ctx items 0);
           obj ← call (PyObject_Call (_h2py callable) (_h2py empty_tuple)
                                     (_h2py kw));
           call (HPy_Close ctx empty_tuple);;
           mret obj);
  mret (_py2h obj).

(** Lines 46-63 of [ctx_Call] and lines 76-93 of [ctx_CallMethod] are the
    same text: compute [kwnames] and [n_all_args], then fill the stack
    buffer [args] from [h_args]. *)
Definition stage_arguments (h_args : list HPy) (nargs : Z) (h_kwnames : HPy)
  : prog (PyObject * list PyObject) :=
  '(kwnames, n_all_args) ←
     (if HPy_IsNull h_kwnames then
        mret (NULL, nargs)
      else
        let kwnames := _h2py h_kwnames in
        assert (mret (c_int (negb (kwnames =? NULL))));;
        assert (call (PyTuple_Check kwnames));;
        size ← call (PyTuple_GET_SIZE kwnames);
        let n_all_args := size_t_wrap (nargs + size) in
        assert (mret (c_int (n_all_args >=? nargs)));;
        mret (kwnames, n_all_args));
  args ← for_loop (Z.to_nat n_all_args) 0%nat
           (λ i args,
              match h_args !! i with
              | Some h => store args i (_h2py h)
              | None => UB
              end)
           (alloca id sizeof_PyObject_ptr
              (size_t_wrap (n_all_args * sizeof_PyObject_ptr)));
  mret (kwnames, args).

Definition ctx_Call (ctx : HPyContext) (h_callable : HPy) (h_args : list HPy)
    (nargs : Z) (h_kwnames : HPy) : prog HPy :=
  '(kwnames, args) ← stage_arguments h_args nargs h_kwnames;
  result ← (if PY_VERSION_HEX <? 0x03090000 then
              call (_PyObject_Vectorcall (_h2py callable) args nargs kwnames)
            else
              call (PyObject_Vectorcall (_h2py h_callable) args nargs kwnames));
  mret (_py2h result).

Definition ctx_CallMethod (ctx : HPyContext) (h_name : HPy) (h_args : list HPy)
    (nargs : Z) (h_kwnames : HPy) : prog HPy :=
  '(kwnames, args) ← stage_arguments h_args nargs h_kwnames;
  if PY_VERSION_HEX <? 0x03090000 then
    match args !! 0%nat with
    | None => UB
    | Some receiver =>
        method ← call (PyObject_GetAttr receiver (_h2py h_name));
        if method =? NULL then mret HPy_NULL
        else
          result ← call (_PyObject_Vectorcall method args nargs NULL);
          call (Py_DECREF method);;
          mret (_py2h result)
    end
  else
    result ← call (PyObject_VectorcallMethod (_h2py h_name) args nargs kwnames);
    mret (_py2h result).

(** *** ctx_meth.c *)

(** The switch on [sig]; its case labels are distinct enumerators, so
    testing them in order selects the same branch. *)
Definition ctx_CallRealFunctionFromTrampoline (ctx : HPyContext)
    (self args kw : PyObject) (func : Z) (sig : Z) : prog PyObject :=
  if sig =? HPyMeth_NOARGS then
    let f := func in
    r ← call (HPyMeth_noargs f ctx (_py2h self));
    mret (_h2py r)
  else if sig =? HPyMeth_O then
    let f := func in
    r ← call (HPyMeth_o f ctx (_py2h self) (_py2h args));
    mret (_h2py r)
  else if sig =? HPyMeth_VARARGS then
    let f := func in
    nargs ← call (PyTuple_GET_SIZE args);
    h_args ← for_loop (Z.to_nat nargs) 0%nat
               (λ i h_args,
                  item ← call (PyTuple_GET_ITEM args (Z.of_nat i));
                  store h_args i (_py2h item))
               (alloca mkHPy sizeof_HPy (size_t_wrap (nargs * sizeof_HPy)));
    r ← call (HPyMeth_varargs f ctx (_py2h self) h_args nargs);
    mret (_h2py r)
  else
    Abort.

End Bridge.

(** ** Running a program against a host *)

(** A host runtime: a state, and an answer (with the next state) to every
    event. *)
Record Host : Type := {
  world : Type;
  handle : ∀ X, hostE X → world → X * world;
}.
Arguments handle _ {X} _ _.

(** One observed interaction: what was asked and what was answered. *)
Inductive obs : Type :=
  | Obs {X : Type} (e : hostE X) (x : X).

Inductive outcome (R : Type) : Type :=
  | Returned (r : R)             (* the C function returned [r] *)
  | Aborted                      (* the process was aborted *)
  | Undefined.                   (* the C function left defined behaviour *)
Arguments Returned {R} r.
Arguments Aborted {R}.
Arguments Undefined {R}.

Record execution (H : Host) (R : Type) : Type := {
  result : outcome R;
  trace : list obs;
  final : world H;
}.
Arguments result {H R} e.
Arguments trace {H R} e.
Arguments final {H R} e.

Definition answer (H : Host) {X} (e : hostE X) (w : world H) : X :=
  fst (handle H e w).
Definition after (H : Host) {X} (e : hostE X) (w : world H) : world H :=
  snd (handle H e w).

Fixpoint run (H : Host) {R} (p : prog R) (w : world H) : execution H R :=
  match p with
  | Ret r => {| result := Returned r; trace := []; final := w |}
  | Vis e k =>
      let r := run H (k (answer H e w)) (after H e w) in
      {| result := result r;
         trace := Obs e (answer H e w) :: trace r;
         final := final r |}
  | Abort => {| result := Aborted; trace := []; final := w |}
  | UB => {| result := Undefined; trace := []; final := w |}
  end.

(** The observations of a trace that satisfy a test on the event. *)
Definition obs_is (test : ∀ X, hostE X → bool) (o : obs) : bool :=
  match o with Obs e _ => test _ e end.

Definition calls_made (tr : list obs) : list obs :=
  List.filter (obs_is (@is_call_primitive)) tr.
Definition natives_entered (tr : list obs) : list obs :=
  List.filter (obs_is (@is_native_call)) tr.

(** The releases of handle [h] through [HPy_Close]. *)
Definition is_close_of (h : HPy) {X} (e : hostE X) : bool :=
  match e with
  | HPy_Close _ h' => _i h' =? _i h
  | _ => false
  end.
Definition closes_of (h : HPy) (tr : list obs) : list obs :=
  List.filter (obs_is (@is_close_of h)) tr.

(** The syntheses of a positional container through [HPyTuple_FromArray]. *)
Definition is_synthesis {X} (e : hostE X) : bool :=
  match e with
  | HPyTuple_FromArray _ _ _ => true
  | _ => false
  end.
Definition syntheses (tr : list obs) : list obs :=
  List.filter (obs_is (@is_synthesis)) tr.

(** The argument a one-argument native function was entered with. *)
Definition single_argument (o : obs) : option HPy :=
  match o with
  | Obs e _ =>
      match e with
      | HPyMeth_o _ _ _ arg => Some arg
      | _ => None
      end
  end.

(** ** The vocabulary of the contracts

    What the host says about the inputs is read off its answers, in the
    states in which the bridge asks. *)

Section Contracts.
Context {P : Platform} (H : Host).

(** What [run] does on [p ≫= f]: run [p], and when it returns run [f]
    from the state it left. *)
Definition run_then {A B} (r : execution H A)
    (f : A → world H → execution H B) : execution H B :=
  match result r with
  | Returned a =>
      let r2 := f a (final r) in
      {| result := result r2; trace := trace r ++ trace r2; final := final r2 |}
  | Aborted => {| result := Aborted; trace := trace r; final := final r |}
  | Undefined => {| result := Undefined; trace := trace r; final := final r |}
  end.

(** *** Vector Call and Call-Method-By-Name *)

(** The [kwnames] reference given to the call primitive. *)
Definition kwnames_of (h_kwnames : HPy) : PyObject :=
  if HPy_IsNull h_kwnames then NULL else _h2py h_kwnames.

(** A non-null [h_kwnames] is a tuple, of K names. *)
Definition keyword_tuple (w : world H) (h_kwnames : HPy) : Prop :=
  _h2py h_kwnames ≠ NULL ∧
  answer H (PyTuple_Check (_h2py h_kwnames)) w ≠ 0.

Definition keyword_count (w : world H) (h_kwnames : HPy) : Z :=
  answer H (PyTuple_GET_SIZE (_h2py h_kwnames))
    (if NDEBUG then w else after H (PyTuple_Check (_h2py h_kwnames)) w).

(** N when [h_kwnames] is null, N + K otherwise. *)
Definition staged_count (w : world H) (nargs : Z) (h_kwnames : HPy) : Z :=
  if HPy_IsNull h_kwnames then nargs
  else nargs + keyword_count w h_kwnames.

(** The caller's side of the contract of [ctx_Call] and [ctx_CallMethod]:
    N is a count; a non-null [h_kwnames] is a tuple of K names and N + K
    does not overflow; [h_args] is an array in memory that holds the N
    positional handles and then the K keyword values. *)
Definition well_formed_call (w : world H) (h_args : list HPy) (nargs : Z)
    (h_kwnames : HPy) : Prop :=
  0 ≤ nargs
  ∧ (HPy_IsNull h_kwnames = false →
       keyword_tuple w h_kwnames
       ∧ 0 ≤ keyword_count w h_kwnames
       ∧ nargs + keyword_count w h_kwnames < 2 ^ 64)
  ∧ (Z.to_nat (staged_count w nargs h_kwnames) ≤ length h_args)%nat
  ∧ Z.of_nat (length h_args) * sizeof_HPy < 2 ^ 64.

#[global] Instance keyword_tuple_dec w h_kwnames :
  Decision (keyword_tuple w h_kwnames).
Proof. unfold keyword_tuple. apply _. Defined.

#[global] Instance well_formed_call_dec w h_args nargs h_kwnames :
  Decision (well_formed_call w h_args nargs h_kwnames).
Proof. unfold well_formed_call. apply _. Defined.

(** The one call [ctx_Call] makes: lines 65-69. *)
Definition vector_call (h_callable : HPy) (buf : list PyObject) (nargs : Z)
    (kwnames : PyObject) (r : PyObject) : obs :=
  if PY_VERSION_HEX <? 0x03090000
  then Obs (_PyObject_Vectorcall (_h2py callable) buf nargs kwnames) r
  else Obs (PyObject_Vectorcall (_h2py h_callable) buf nargs kwnames) r.

(** *** Tuple/Dict Call *)

(** The host's word on the types of [args] and [kw]: [args] is asked about
    first (when it is not null), then [kw]. *)
Definition tuple_typed (ctx : HPyContext) (args : HPy) (w : world H) : bool :=
  negb (c_not (answer H (HPyTuple_Check ctx args) w)).

Definition after_args_check (ctx : HPyContext) (args : HPy) (w : world H)
  : world H :=
  if HPy_IsNull args then w else after H (HPyTuple_Check ctx args) w.

Definition dict_typed (ctx : HPyContext) (args kw : HPy) (w : world H) : bool :=
  negb (c_not (answer H (HPyDict_Check ctx kw) (after_args_check ctx args w))).

(** *** The inbound dispatcher *)

(** The reading of SINGLE_ARG in which [args] is a container: the native
    function is entered with the translation of the element the host
    finds at position 0 of [args]. *)
Definition single_arg_taken_from_container (w : world H) (ctx : HPyContext)
    (self args kw : PyObject) (func : Z) : Prop :=
  let done :=
    run H (ctx_CallRealFunctionFromTrampoline ctx self args kw func HPyMeth_O) w
  in
  ∃ r : HPy,
    natives_entered (trace done)
    = [Obs (HPyMeth_o func ctx (_py2h self)
              (_py2h (answer H (PyTuple_GET_ITEM args 0) w))) r]
    ∧ result done = Returned (_h2py r).

End Contracts.

(** ** A small host, to run the bridge on concrete inputs

    Handles are casts of addresses, as in the CPython ABI build.  The heap
    is fixed; a call of the function at address 10, or of the bound method
    at address 80, answers the int object that counts what it received:
    address [1000 + positional arguments + 100 * keyword arguments].  The
    call primitives follow the C API of CPython: a vector call passes the
    first [nargsf] references of the buffer as positional arguments and
    one keyword argument per name in [kwnames]; a bound method receives
    its receiver besides the arguments of the call;
    [PyObject_VectorcallMethod] looks the name up on [args[0]] and calls
    the method with the arguments after the receiver, which [nargsf]
    counts. *)
Module Toy.

Inductive pyobj : Type :=
  | PyInt (n : Z)
  | PyStr (s : string)
  | PyTuple (items : list PyObject)
  | PyList (items : list PyObject)
  | PyDict (entries : list (PyObject * PyObject))
  | PyFunction
  | PyInstance
  | PyBoundMethod (self : PyObject).

Definition heap (p : PyObject) : option pyobj :=
  if p =? 10 then Some PyFunction
  else if p =? 20 then Some (PyTuple [30; 31])
  else if p =? 21 then Some (PyTuple [])
  else if p =? 22 then Some (PyTuple [30])
  else if p =? 23 then Some (PyTuple [40])
  else if p =? 30 then Some (PyInt 1)
  else if p =? 31 then Some (PyInt 2)
  else if p =? 40 then Some (PyStr "x")
  else if p =? 41 then Some (PyStr "count")
  else if p =? 50 then Some (PyDict [(40, 30)])
  else if p =? 60 then Some (PyList [30])
  else if p =? 70 then Some PyInstance
  else if p =? 80 then Some (PyBoundMethod 70)
  else if 1000 <=? p then Some (PyInt (p - 1000))
  else None.

Record state : Type := {
  oom : bool;                          (* the next allocation fails *)
  error : option (HPy * string);       (* the error indicator *)
  closed : list HPy;                   (* handles given to HPy_Close *)
  decrefs : list PyObject;             (* references given to Py_DECREF *)
}.

Definition start (oom : bool) : state :=
  {| oom := oom; error := None; closed := []; decrefs := [] |}.
Definition fresh : state := start false.
Definition exhausted : state := start true.

Definition is_tuple (p : PyObject) : Z :=
  match heap p with Some (PyTuple _) => 1 | _ => 0 end.
Definition is_dict (p : PyObject) : Z :=
  match heap p with Some (PyDict _) => 1 | _ => 0 end.
Definition tuple_items (p : PyObject) : list PyObject :=
  match heap p with Some (PyTuple items) => items | _ => [] end.
Definition dict_size (p : PyObject) : Z :=
  match heap p with Some (PyDict entries) => Z.of_nat (length entries) | _ => 0 end.

(** Calling [c] with [n] positional and [k] keyword arguments. *)
Definition invoke (c : PyObject) (n k : Z) : PyObject :=
  match heap c with
  | Some PyFunction | Some (PyBoundMethod _) => 1000 + n + 100 * k
  | _ => NULL
  end.

Definition getattr (o name : PyObject) : PyObject :=
  if (o =? 70) && (name =? 41) then 80 else NULL.

Definition respond X (e : hostE X) (w : state) : X * state :=
  match e in hostE X return X * state with
  | HPyTuple_Check _ h => (is_tuple (_i h), w)
  | HPyDict_Check _ h => (is_dict (_i h), w)
  | HPyErr_SetString _ h_type message =>
      (tt, {| oom := oom w; error := Some (h_type, message);
              closed := closed w; decrefs := decrefs w |})
  | HPyTuple_FromArray _ _ n =>
      (if oom w then HPy_NULL else if n =? 0 then mkHPy 21 else HPy_NULL, w)
  | HPy_Close _ h =>
      (tt, {| oom := oom w; error := error w;
              closed := closed w ++ [h]; decrefs := decrefs w |})
  | PyObject_CallObject c args =>
      (invoke c (Z.of_nat (length (tuple_items args))) 0, w)
  | PyObject_Call c args kw =>
      (if is_tuple args =? 0 then NULL
       else invoke c (Z.of_nat (length (tuple_items args))) (dict_size kw), w)
  | _PyObject_Vectorcall c _ nargsf kwnames
  | PyObject_Vectorcall c _ nargsf kwnames =>
      (invoke c nargsf (Z.of_nat (length (tuple_items kwnames))), w)
  | PyObject_VectorcallMethod name args nargsf kwnames =>
      (match args with
       | receiver :: _ =>
           invoke (getattr receiver name) (nargsf - 1)
                  (Z.of_nat (length (tuple_items kwnames)))
       | [] => NULL
       end, w)
  | PyObject_GetAttr o name => (getattr o name, w)
  | Py_DECREF o =>
      (tt, {| oom := oom w; error := error w;
              closed := closed w; decrefs := decrefs w ++ [o] |})
  | PyTuple_Check o => (is_tuple o, w)
  | PyTuple_GET_SIZE o => (Z.of_nat (length (tuple_items o)), w)
  | PyTuple_GET_ITEM o i => (default NULL (tuple_items o !! Z.to_nat i), w)
  | HPyMeth_noargs _ _ self => (self, w)
  | HPyMeth_o _ _ _ arg => (arg, w)
  | HPyMeth_varargs _ _ _ _ nargs => (mkHPy (1000 + nargs), w)
  end.

Definition host : Host := {| world := state; handle := respond |}.

Definition platform (version : Z) (ndebug : bool) : Platform :=
  {| _h2py := _i; _py2h := mkHPy;
     PY_VERSION_HEX := version; NDEBUG := ndebug;
     HPyMeth_VARARGS := 1; HPyMeth_NOARGS := 3; HPyMeth_O := 4;
     uninit := -1; callable := HPy_NULL |}.

Definition py38 : Platform := platform 0x030800f0 false.
Definition py39 : Platform := platform 0x030900f0 false.

Definition ctx : HPyContext := {| h_TypeError := mkHPy 90 |}.

End Toy.

(** ** Further vocabulary: what a trace read, closed and synthesised *)

(** The reads of the elements [items] of the container [args], from
    position [i] on: lines 22-24 of ctx_meth.c. *)
Fixpoint item_reads (args : PyObject) (i : nat) (items : list PyObject)
  : list obs :=
  match items with
  | [] => []
  | item :: rest =>
      Obs (PyTuple_GET_ITEM args (Z.of_nat i)) item
      :: item_reads args (Datatypes.S i) rest
  end.



(** The attribute lookups of a trace. *)
Definition is_lookup {X} (e : hostE X) : bool :=
  match e with
  | PyObject_GetAttr _ _ => true
  | _ => false
  end.
Definition lookups (tr : list obs) : list obs :=
  List.filter (obs_is (@is_lookup)) tr.

(** [n_all_args] as lines 49-58 compute it, wrapped: the number of cells
    the staging loop fills. *)
Definition cells_to_fill {P : Platform} (H : Host) (w : world H) (nargs : Z)
    (h_kwnames : HPy) : Z :=
  if HPy_IsNull h_kwnames then nargs
  else size_t_wrap (nargs + keyword_count H w h_kwnames).

(** The small host under a 3.9 build with the assertions compiled out. *)
Definition toy_py39_release : Platform := Toy.platform 0x030900f0 true.

(** * Properties *)

(** ** The small host answers as described *)

Example toy_CallTupleDict_args_kw :
  result (run Toy.host
            (ctx_CallTupleDict (P := Toy.py39) Toy.ctx (mkHPy 10) (mkHPy 20) (mkHPy 50))
            Toy.fresh)
  = Returned (mkHPy 1102).
Proof. vm_compute. reflexivity. Qed.

Example toy_Call_kwnames :
  trace (run Toy.host
           (ctx_Call (P := Toy.py39) Toy.ctx (mkHPy 10)
              [mkHPy 30; mkHPy 31; mkHPy 30] 2 (mkHPy 23))
           Toy.fresh)
  = [Obs (PyTuple_Check 23) 1; Obs (PyTuple_GET_SIZE 23) 1;
     Obs (PyObject_Vectorcall 10 [30; 31; 30] 2 23) 1102].
Proof. vm_compute. reflexivity. Qed.

Example toy_Call_short_array_is_undefined :
  result (run Toy.host
            (ctx_Call (P := Toy.py39) Toy.ctx (mkHPy 10)
               [mkHPy 30; mkHPy 31] 2 (mkHPy 23))
            Toy.fresh)
  = Undefined.
Proof. vm_compute. reflexivity. Qed.

Example toy_trampoline_VARARGS :
  trace (run Toy.host
           (ctx_CallRealFunctionFromTrampoline (P := Toy.py39) Toy.ctx
              70 20 NULL 102 1)
           Toy.fresh)
  = [Obs (PyTuple_GET_SIZE 20) 2;
     Obs (PyTuple_GET_ITEM 20 0) 30; Obs (PyTuple_GET_ITEM 20 1) 31;
     Obs (HPyMeth_varargs 102 Toy.ctx (mkHPy 70) [mkHPy 30; mkHPy 31] 2)
         (mkHPy 1002)].
Proof. vm_compute. reflexivity. Qed.

Example toy_call_is_well_formed :
  bool_decide
    (well_formed_call (P := Toy.py39) Toy.host Toy.fresh
       [mkHPy 30; mkHPy 31; mkHPy 30] 2 (mkHPy 23))
  = true.
Proof. vm_compute. reflexivity. Qed.

Example toy_call_with_short_array_is_not_well_formed :
  bool_decide
    (well_formed_call (P := Toy.py39) Toy.host Toy.fresh
       [mkHPy 30; mkHPy 31] 2 (mkHPy 23))
  = false.
Proof. vm_compute. reflexivity. Qed.

Example toy_CallMethod_lookup_fails :
  trace (run Toy.host
           (ctx_CallMethod (P := Toy.py38) Toy.ctx (mkHPy 40) [mkHPy 70] 1 HPy_NULL)
           Toy.fresh)
  = [Obs (PyObject_GetAttr 70 40) NULL].
Proof. vm_compute. reflexivity. Qed.

(** ** Running sequences and loops *)

Section Run.
Context (H : Host).

Lemma run_bind {A B} (p : prog A) (f : A → prog B) (w : world H) :
  run H (p ≫= f) w = run_then H (run H p w) (λ a w', run H (f a) w').
Proof.
  revert w. induction p as [a | X e k IH | | ]; intros w.
  - unfold run_then. simpl. by destruct (run H (f a) w).
  - change (Vis e k ≫= f) with (Vis e (λ x, k x ≫= f)).
    simpl. rewrite IH. unfold run_then. simpl.
    by destruct (result (run H (k (answer H e w)) (after H e w))).
  - reflexivity.
  - reflexivity.
Qed.

End Run.

(** ** Staging the argument buffer (ctx_Call, ctx_CallMethod) *)

Section Staging.
Context {P : Platform} (H : Host).

(** The loop of lines 61-63 and 91-93: with [count] cells still to fill
    and [pre] already filled, it fills the rest from [h_args] in order and
    stays inside both arrays. *)
Lemma staging_loop (h_args : list HPy) (count : nat) :
  ∀ (i : nat) (pre : list PyObject),
    length pre = i →
    (i + count ≤ length h_args)%nat →
    for_loop count i
      (λ i args,
         match h_args !! i with
         | Some h => store args i (_h2py h)
         | None => UB
         end)
      (pre ++ replicate count uninit)
    = Ret (pre ++ (_h2py <$> take count (drop i h_args))).
Proof.
  induction count as [| c IH]; intros i pre Hpre Hlen.
  - reflexivity.
  - destruct (lookup_lt_is_Some_2 h_args i) as [h Hh]; [lia |].
    simpl. rewrite Hh. unfold store.
    rewrite decide_True by (rewrite length_app; simpl; lia). simpl.
    rewrite insert_app_r_alt by lia.
    replace (i - length pre)%nat with 0%nat by lia. simpl.
    rewrite (drop_S _ _ _ Hh). simpl.
    rewrite cons_middle, app_assoc.
    rewrite (IH (Datatypes.S i) (pre ++ [_h2py h])).
    + by rewrite <- app_assoc.
    + rewrite length_app. simpl. lia.
    + lia.
Qed.

(** The buffer of [n] references takes [n * 8] bytes, which does not wrap
    when the [n] handles it is filled from lie in memory. *)
Lemma alloca_cells (n : Z) :
  0 ≤ n → n * sizeof_PyObject_ptr < 2 ^ 64 →
  alloca id sizeof_PyObject_ptr (size_t_wrap (n * sizeof_PyObject_ptr))
  = replicate (Z.to_nat n) uninit.
Proof.
  intros Hn Hfit. unfold alloca, size_t_wrap, id.
  rewrite Z.mod_small by (unfold sizeof_PyObject_ptr in *; lia).
  by rewrite Z.div_mul.
Qed.

Lemma run_stage_arguments (w : world H) (h_args : list HPy) (nargs : Z)
    (h_kwnames : HPy) :
  well_formed_call H w h_args nargs h_kwnames →
  let staged := run H (stage_arguments h_args nargs h_kwnames) w in
  result staged
    = Returned (kwnames_of h_kwnames,
                _h2py <$> take (Z.to_nat (staged_count H w nargs h_kwnames)) h_args)
  ∧ calls_made (trace staged) = []
  ∧ natives_entered (trace staged) = [].
Proof.
  intros (Hn & Hkw & Hlen & Hmem) staged. subst staged.
  assert (Hloop : ∀ n : Z,
    0 ≤ n → (Z.to_nat n ≤ length h_args)%nat →
    for_loop (Z.to_nat n) 0%nat
      (λ i args,
         match h_args !! i with
         | Some h => store args i (_h2py h)
         | None => UB
         end)
      (alloca id sizeof_PyObject_ptr (size_t_wrap (n * sizeof_PyObject_ptr)))
    = Ret (_h2py <$> take (Z.to_nat n) h_args)).
  { intros n Hn0 Hle.
    rewrite alloca_cells
      by (unfold sizeof_PyObject_ptr, sizeof_HPy in *; lia).
    exact (staging_loop h_args (Z.to_nat n) 0%nat [] eq_refl Hle). }
  unfold stage_arguments, kwnames_of, staged_count in *.
  destruct (HPy_IsNull h_kwnames) eqn:Hnull.
  - simpl. rewrite Hloop by done. by simpl.
  - destruct (Hkw eq_refl) as ((Hk & Htup) & HK & Hsum).
    unfold keyword_count in *.
    set (k := _h2py h_kwnames) in *.
    assert (Hk' : (k =? NULL) = false) by by apply Z.eqb_neq.
    assert (Htup' : c_not (answer H (PyTuple_Check k) w) = false)
      by by apply Z.eqb_neq.
    unfold assert. destruct NDEBUG; simpl.
    + set (K := answer H (PyTuple_GET_SIZE k) w) in *.
      replace (size_t_wrap (nargs + K)) with (nargs + K)
        by (unfold size_t_wrap; rewrite Z.mod_small; lia).
      rewrite Hloop by (done || lia). by simpl.
    + rewrite Hk'. simpl. rewrite Htup'. simpl.
      set (K := answer H (PyTuple_GET_SIZE k) (after H (PyTuple_Check k) w)) in *.
      replace (size_t_wrap (nargs + K)) with (nargs + K)
        by (unfold size_t_wrap; rewrite Z.mod_small; lia).
      replace (nargs + K >=? nargs) with true
        by (symmetry; rewrite Z.geb_leb; apply Z.leb_le; lia).
      simpl. rewrite Hloop by (done || lia). by simpl.
Qed.

End Staging.

(** ** Vector Call: [ctx_Call] *)

Section VectorCall.
Context {P : Platform} (H : Host).

(** C2.  Vector Call with [nargs] = N stages exactly N references when
    [h_kwnames] is null and exactly N + K when it is a tuple of K names
    (N + K below 2^64): the buffer has that length, position [i] holds the
    translation of [h_args[i]] for every [i] below it (positional handles,
    then the keyword values that follow them in [h_args]), and only then
    is the vector-call primitive run, once, on that buffer with count
    [nargs] and [kwnames]. *)
Theorem ctx_Call_stages_in_order (w : world H) (ctx : HPyContext)
    (h_callable : HPy) (h_args : list HPy) (nargs : Z) (h_kwnames : HPy) :
  well_formed_call H w h_args nargs h_kwnames →
  let n := Z.to_nat (staged_count H w nargs h_kwnames) in
  let done := run H (ctx_Call ctx h_callable h_args nargs h_kwnames) w in
  ∃ (buf : list PyObject) (pre : list obs) (r : PyObject),
    length buf = n
    ∧ (∀ i h, (i < n)%nat → h_args !! i = Some h → buf !! i = Some (_h2py h))
    ∧ calls_made pre = []
    ∧ trace done
      = pre ++ [vector_call h_callable buf nargs (kwnames_of h_kwnames) r]
    ∧ result done = Returned (_py2h r).
Proof.
  intros Hwf n done.
  destruct (run_stage_arguments H w h_args nargs h_kwnames Hwf)
    as (Hres & Hcalls & _).
  destruct Hwf as (_ & _ & Hlen & _). fold n in Hres, Hlen.
  subst done. unfold ctx_Call, vector_call.
  rewrite run_bind. unfold run_then. rewrite Hres.
  set (staged := run H (stage_arguments h_args nargs h_kwnames) w) in *.
  set (buf := _h2py <$> take n h_args).
  exists buf, (trace staged).
  exists (answer H
            (if PY_VERSION_HEX <? 0x03090000 as legacy
               return hostE PyObject
             then _PyObject_Vectorcall (_h2py callable) buf nargs
                    (kwnames_of h_kwnames)
             else PyObject_Vectorcall (_h2py h_callable) buf nargs
                    (kwnames_of h_kwnames))
            (final staged)).
  split; [| split; [| split; [done |]]].
  - unfold buf. rewrite length_fmap, length_take. lia.
  - intros i h Hi Hh. unfold buf.
    by rewrite list_lookup_fmap, lookup_take_lt, Hh.
  - destruct (PY_VERSION_HEX <? 0x03090000); by simpl.
Qed.

End VectorCall.

Lemma ctx_Call_stages_in_order_witness :
  let done :=
    run Toy.host
      (ctx_Call (P := Toy.py39) Toy.ctx (mkHPy 10)
         [mkHPy 30; mkHPy 31; mkHPy 30] 2 (mkHPy 23))
      Toy.fresh in
  ∃ (buf : list PyObject) (pre : list obs) (r : PyObject),
    length buf = 3%nat
    ∧ (∀ i h, (i < 3)%nat →
         [mkHPy 30; mkHPy 31; mkHPy 30] !! i = Some h → buf !! i = Some (_i h))
    ∧ calls_made pre = []
    ∧ trace done = pre ++ [Obs (PyObject_Vectorcall 10 buf 2 23) r]
    ∧ result done = Returned (mkHPy r).
Proof.
  apply (ctx_Call_stages_in_order (P := Toy.py39) Toy.host Toy.fresh Toy.ctx
           (mkHPy 10) [mkHPy 30; mkHPy 31; mkHPy 30] 2 (mkHPy 23)).
  split; [lia |]. split; [| split].
  - intros _. split; [split; discriminate |].
    split; vm_compute; [discriminate | reflexivity].
  - vm_compute. lia.
  - reflexivity.
Defined.

(** ** Call-Method-By-Name: [ctx_CallMethod] *)

Section MethodCall.
Context {P : Platform} (H : Host).

(** C7.  On a host older than 3.9 [ctx_CallMethod], once the buffer is
    staged, looks the name up on the receiver of slot 0.  When the lookup
    answers NULL it returns the null handle at once and nothing is called.
    Otherwise it calls the method it found on the whole staged buffer with
    count [nargs] and NULL for the keyword names, then drops its reference
    to the method, and returns the translated result. *)
Theorem ctx_CallMethod_fallback (w : world H) (ctx : HPyContext)
    (h_name : HPy) (h_args : list HPy) (nargs : Z) (h_kwnames : HPy) :
  PY_VERSION_HEX < 0x03090000 →
  well_formed_call H w h_args nargs h_kwnames →
  0 < staged_count H w nargs h_kwnames →
  let n := Z.to_nat (staged_count H w nargs h_kwnames) in
  let buf := _h2py <$> take n h_args in
  let staged := run H (stage_arguments h_args nargs h_kwnames) w in
  let done := run H (ctx_CallMethod ctx h_name h_args nargs h_kwnames) w in
  ∃ receiver : HPy,
    h_args !! 0%nat = Some receiver
    ∧ calls_made (trace staged) = []
    ∧ let lookup := PyObject_GetAttr (_h2py receiver) (_h2py h_name) in
      let method := answer H lookup (final staged) in
      if method =? NULL then
        trace done = trace staged ++ [Obs lookup method]
        ∧ result done = Returned HPy_NULL
      else
        ∃ r : PyObject,
          trace done
          = trace staged ++
            [Obs lookup method;
             Obs (_PyObject_Vectorcall method buf nargs NULL) r;
             Obs (Py_DECREF method) ()]
          ∧ result done = Returned (_py2h r).
Proof.
  intros Hver Hwf Hpos n buf staged done.
  destruct (run_stage_arguments H w h_args nargs h_kwnames Hwf)
    as (Hres & Hcalls & _).
  destruct Hwf as (_ & _ & Hlen & _).
  fold n in Hres, Hlen. fold staged in Hres, Hcalls.
  destruct h_args as [| receiver rest]; [simpl in Hlen; lia |].
  destruct n as [| n'] eqn:Hn; [lia |].
  exists receiver. split; [done |]. split; [done |].
  subst done. unfold ctx_CallMethod.
  rewrite run_bind. fold staged. unfold run_then. rewrite Hres.
  apply Z.ltb_lt in Hver. rewrite Hver.
  subst buf. simpl.
  destruct (answer H (PyObject_GetAttr (_h2py receiver) (_h2py h_name))
              (final staged) =? NULL) eqn:Hnull; simpl.
  - done.
  - eexists. split; [| reflexivity].
    by destruct (answer H (Py_DECREF _) _).
Qed.

End MethodCall.

Lemma ctx_CallMethod_fallback_witness :
  let staged :=
    run Toy.host (stage_arguments (P := Toy.py38) [mkHPy 70] 1 HPy_NULL)
      Toy.fresh in
  let done :=
    run Toy.host
      (ctx_CallMethod (P := Toy.py38) Toy.ctx (mkHPy 41) [mkHPy 70] 1 HPy_NULL)
      Toy.fresh in
  ∃ receiver : HPy,
    [mkHPy 70] !! 0%nat = Some receiver
    ∧ calls_made (trace staged) = []
    ∧ let lookup := PyObject_GetAttr (_i receiver) 41 in
      let method := answer Toy.host lookup (final staged) in
      if method =? NULL then
        trace done = trace staged ++ [Obs lookup method]
        ∧ result done = Returned HPy_NULL
      else
        ∃ r : PyObject,
          trace done
          = trace staged ++
            [Obs lookup method;
             Obs (_PyObject_Vectorcall method [70] 1 NULL) r;
             Obs (Py_DECREF method) ()]
          ∧ result done = Returned (mkHPy r).
Proof.
  apply (ctx_CallMethod_fallback (P := Toy.py38) Toy.host Toy.fresh Toy.ctx
           (mkHPy 41) [mkHPy 70] 1 HPy_NULL).
  - reflexivity.
  - split; [lia |]. split; [discriminate |]. split; [vm_compute; lia |].
    reflexivity.
  - reflexivity.
Defined.

(** C5.  Call-Method-By-Name of the method [count] on the receiver at
    address 70, first with the receiver alone, then with one keyword
    argument.  A 3.9 host calls the method with no positional argument
    (answers 1000), respectively with one keyword argument (1100).  The
    branch for a 3.8 host calls it on the whole buffer with count [nargs],
    receiver included, and without the keyword names: the method counts
    one positional argument and no keyword in both cases (1001). *)
Theorem ctx_CallMethod_fallback_differs :
  result (run Toy.host
            (ctx_CallMethod (P := Toy.py39) Toy.ctx (mkHPy 41)
               [mkHPy 70] 1 HPy_NULL) Toy.fresh)
  = Returned (mkHPy 1000)
  ∧ result (run Toy.host
              (ctx_CallMethod (P := Toy.py38) Toy.ctx (mkHPy 41)
                 [mkHPy 70] 1 HPy_NULL) Toy.fresh)
    = Returned (mkHPy 1001)
  ∧ result (run Toy.host
              (ctx_CallMethod (P := Toy.py39) Toy.ctx (mkHPy 41)
                 [mkHPy 70; mkHPy 30] 1 (mkHPy 23)) Toy.fresh)
    = Returned (mkHPy 1100)
  ∧ result (run Toy.host
              (ctx_CallMethod (P := Toy.py38) Toy.ctx (mkHPy 41)
                 [mkHPy 70; mkHPy 30] 1 (mkHPy 23)) Toy.fresh)
    = Returned (mkHPy 1001).
Proof. repeat split; vm_compute; reflexivity. Qed.

(** ** Tuple/Dict Call: [ctx_CallTupleDict] *)

Section TupleDictCall.
Context {P : Platform} (H : Host).

(** Runs the two checks of lines 16-25 with what is known of the host's
    answers. *)
Ltac run_checks :=
  unfold ctx_CallTupleDict, and_then, tuple_typed, dict_typed,
    after_args_check in *;
  repeat match goal with
         | Hb : HPy_IsNull _ = _ |- _ => rewrite Hb in *; clear Hb
         end;
  simpl in *;
  repeat match goal with
         | Hc : negb (c_not _) = true |- _ =>
             apply negb_true_iff in Hc; rewrite Hc; simpl
         | Hc : negb (c_not _) = false |- _ =>
             apply negb_false_iff in Hc; rewrite Hc; simpl
         | |- context [Obs (HPyErr_SetString ?c ?t ?m) (answer ?H ?e ?w)] =>
             generalize (answer H e w); intros []
         | |- context [Obs (HPy_Close ?c ?h) (answer ?H ?e ?w)] =>
             generalize (answer H e w); intros []
         end.

(** C3.  When [args] is neither null nor tuple-typed, or [kw] is neither
    null nor dict-typed, Tuple/Dict Call sets an error of the TypeError
    kind as its last act and returns the null handle, and no call
    primitive of the host has been run. *)
Theorem ctx_CallTupleDict_rejects (w : world H) (ctx : HPyContext)
    (callable args kw : HPy) :
  (HPy_IsNull args = false ∧ tuple_typed H ctx args w = false)
  ∨ (HPy_IsNull kw = false ∧ dict_typed H ctx args kw w = false) →
  let done := run H (ctx_CallTupleDict ctx callable args kw) w in
  ∃ (pre : list obs) (message : string),
    trace done
    = pre ++ [Obs (HPyErr_SetString ctx (h_TypeError ctx) message) ()]
    ∧ calls_made (trace done) = []
    ∧ result done = Returned HPy_NULL.
Proof.
  intros Hbad done. subst done.
  destruct (HPy_IsNull args) eqn:Hargs.
  - destruct Hbad as [[? _] | [Hkw Hdict]]; [done |].
    run_checks. by eexists [_], _.
  - destruct (tuple_typed H ctx args w) eqn:Htuple.
    + destruct Hbad as [[_ ?] | [Hkw Hdict]]; [done |].
      run_checks. by eexists [_; _], _.
    + clear Hbad. run_checks. by eexists [_], _.
Qed.

(** C1.  When [args] is null or tuple-typed and [kw] is null or
    dict-typed, Tuple/Dict Call returns the translation of what one call
    primitive of the host answers, and runs no other: with [kw] null,
    [PyObject_CallObject] on the callable and [args] as it is, null or
    not, and no container is synthesised; with both present,
    [PyObject_Call] on them, and no container is synthesised; with [args]
    null and [kw] present, [PyObject_Call] on the container that
    [HPyTuple_FromArray] made from no items, and on [kw]. *)
Theorem ctx_CallTupleDict_is_direct_call (w : world H) (ctx : HPyContext)
    (callable args kw : HPy) :
  HPy_IsNull args = true ∨ tuple_typed H ctx args w = true →
  HPy_IsNull kw = true ∨ dict_typed H ctx args kw w = true →
  let done := run H (ctx_CallTupleDict ctx callable args kw) w in
  ∃ obj : PyObject,
    result done = Returned (_py2h obj)
    ∧ if HPy_IsNull kw then
        calls_made (trace done)
        = [Obs (PyObject_CallObject (_h2py callable) (_h2py args)) obj]
        ∧ syntheses (trace done) = []
      else if HPy_IsNull args then
        ∃ empty_tuple : HPy,
          syntheses (trace done)
          = [Obs (HPyTuple_FromArray ctx [] 0) empty_tuple]
          ∧ calls_made (trace done)
            = [Obs (PyObject_Call (_h2py callable) (_h2py empty_tuple)
                      (_h2py kw)) obj]
      else
        calls_made (trace done)
        = [Obs (PyObject_Call (_h2py callable) (_h2py args) (_h2py kw)) obj]
        ∧ syntheses (trace done) = [].
Proof.
  intros Hargs Hkw done. subst done.
  destruct (HPy_IsNull args) eqn:Ha, (HPy_IsNull kw) eqn:Hk;
    destruct Hargs as [? | Htuple]; try done;
    destruct Hkw as [? | Hdict]; try done;
    run_checks; eexists; (split; [reflexivity |]); try done.
  all: by eexists.
Qed.

(** C6.  With [args] null and [kw] present and dict-typed, Tuple/Dict Call
    does exactly this, in this order, whatever the call answers (an
    object or NULL): it synthesises a container from no items, runs
    [PyObject_Call] on that container and [kw], and closes the
    synthesised handle, once, after the call. *)
Theorem ctx_CallTupleDict_releases_once (w : world H) (ctx : HPyContext)
    (callable args kw : HPy) :
  HPy_IsNull args = true →
  HPy_IsNull kw = false →
  dict_typed H ctx args kw w = true →
  let done := run H (ctx_CallTupleDict ctx callable args kw) w in
  ∃ (c : Z) (empty_tuple : HPy) (obj : PyObject),
    trace done
    = [Obs (HPyDict_Check ctx kw) c;
       Obs (HPyTuple_FromArray ctx [] 0) empty_tuple;
       Obs (PyObject_Call (_h2py callable) (_h2py empty_tuple) (_h2py kw)) obj;
       Obs (HPy_Close ctx empty_tuple) ()]
    ∧ length (closes_of empty_tuple (trace done)) = 1%nat
    ∧ result done = Returned (_py2h obj).
Proof.
  intros Hargs Hkw Hdict done. subst done.
  run_checks. do 3 eexists. split; [reflexivity |]. split; [| reflexivity].
  unfold closes_of. simpl. by rewrite Z.eqb_refl.
Qed.

(** C10.  The synthesis is not checked.  With [args] null and [kw] present
    and dict-typed, when [HPyTuple_FromArray] answers the null handle (and
    the null handle translates to NULL), [PyObject_Call] is run all the
    same, with NULL as its positional container, and the null handle is
    then given to [HPy_Close]: no error is returned before the call. *)
Theorem ctx_CallTupleDict_calls_after_failed_synthesis (w : world H)
    (ctx : HPyContext) (callable args kw : HPy) :
  HPy_IsNull args = true →
  HPy_IsNull kw = false →
  dict_typed H ctx args kw w = true →
  answer H (HPyTuple_FromArray ctx [] 0) (after H (HPyDict_Check ctx kw) w)
  = HPy_NULL →
  _h2py HPy_NULL = NULL →
  let done := run H (ctx_CallTupleDict ctx callable args kw) w in
  ∃ (c : Z) (obj : PyObject),
    trace done
    = [Obs (HPyDict_Check ctx kw) c;
       Obs (HPyTuple_FromArray ctx [] 0) HPy_NULL;
       Obs (PyObject_Call (_h2py callable) NULL (_h2py kw)) obj;
       Obs (HPy_Close ctx HPy_NULL) ()]
    ∧ result done = Returned (_py2h obj).
Proof.
  intros Hargs Hkw Hdict Hfail Hnull done. subst done.
  run_checks. rewrite Hfail, Hnull.
  do 2 eexists. split; reflexivity.
Qed.

End TupleDictCall.

Lemma ctx_CallTupleDict_rejects_witness :
  let done :=
    run Toy.host
      (ctx_CallTupleDict (P := Toy.py39) Toy.ctx (mkHPy 10) (mkHPy 60) HPy_NULL)
      Toy.fresh in
  ∃ (pre : list obs) (message : string),
    trace done
    = pre ++ [Obs (HPyErr_SetString Toy.ctx (mkHPy 90) message) ()]
    ∧ calls_made (trace done) = []
    ∧ result done = Returned HPy_NULL.
Proof.
  apply (ctx_CallTupleDict_rejects (P := Toy.py39) Toy.host Toy.fresh
           Toy.ctx (mkHPy 10) (mkHPy 60) HPy_NULL).
  left. split; reflexivity.
Defined.

Lemma ctx_CallTupleDict_is_direct_call_witness :
  let done :=
    run Toy.host
      (ctx_CallTupleDict (P := Toy.py39) Toy.ctx (mkHPy 10) HPy_NULL (mkHPy 50))
      Toy.fresh in
  ∃ obj : PyObject,
    result done = Returned (mkHPy obj)
    ∧ ∃ empty_tuple : HPy,
        syntheses (trace done)
        = [Obs (HPyTuple_FromArray Toy.ctx [] 0) empty_tuple]
        ∧ calls_made (trace done)
          = [Obs (PyObject_Call 10 (_i empty_tuple) 50) obj].
Proof.
  apply (ctx_CallTupleDict_is_direct_call (P := Toy.py39) Toy.host Toy.fresh
           Toy.ctx (mkHPy 10) HPy_NULL (mkHPy 50)).
  - left. reflexivity.
  - right. reflexivity.
Defined.

Lemma ctx_CallTupleDict_releases_once_witness :
  let done :=
    run Toy.host
      (ctx_CallTupleDict (P := Toy.py39) Toy.ctx (mkHPy 10) HPy_NULL (mkHPy 50))
      Toy.fresh in
  ∃ (c : Z) (empty_tuple : HPy) (obj : PyObject),
    trace done
    = [Obs (HPyDict_Check Toy.ctx (mkHPy 50)) c;
       Obs (HPyTuple_FromArray Toy.ctx [] 0) empty_tuple;
       Obs (PyObject_Call 10 (_i empty_tuple) 50) obj;
       Obs (HPy_Close Toy.ctx empty_tuple) ()]
    ∧ length (closes_of empty_tuple (trace done)) = 1%nat
    ∧ result done = Returned (mkHPy obj).
Proof.
  apply (ctx_CallTupleDict_releases_once (P := Toy.py39) Toy.host Toy.fresh
           Toy.ctx (mkHPy 10) HPy_NULL (mkHPy 50)); reflexivity.
Defined.

Lemma ctx_CallTupleDict_calls_after_failed_synthesis_witness :
  let done :=
    run Toy.host
      (ctx_CallTupleDict (P := Toy.py39) Toy.ctx (mkHPy 10) HPy_NULL (mkHPy 50))
      Toy.exhausted in
  ∃ (c : Z) (obj : PyObject),
    trace done
    = [Obs (HPyDict_Check Toy.ctx (mkHPy 50)) c;
       Obs (HPyTuple_FromArray Toy.ctx [] 0) HPy_NULL;
       Obs (PyObject_Call 10 NULL 50) obj;
       Obs (HPy_Close Toy.ctx HPy_NULL) ()]
    ∧ result done = Returned (mkHPy obj).
Proof.
  apply (ctx_CallTupleDict_calls_after_failed_synthesis (P := Toy.py39)
           Toy.host Toy.exhausted Toy.ctx (mkHPy 10) HPy_NULL (mkHPy 50));
    reflexivity.
Defined.

(** ** The inbound dispatcher: [ctx_CallRealFunctionFromTrampoline] *)

Section Trampoline.
Context {P : Platform} (H : Host).

(** C8.  Under NO_ARGS the dispatcher is the same program whatever [args]
    and [kw] are; it enters the native function once, with the context and
    the translated receiver and nothing else, asks the host nothing about
    [args] or [kw], and returns the translated result. *)
Theorem trampoline_NOARGS_ignores_containers (w : world H) (ctx : HPyContext)
    (self args kw args' kw' : PyObject) (func : Z) :
  ctx_CallRealFunctionFromTrampoline ctx self args kw func HPyMeth_NOARGS
  = ctx_CallRealFunctionFromTrampoline ctx self args' kw' func HPyMeth_NOARGS
  ∧ let done :=
      run H (ctx_CallRealFunctionFromTrampoline ctx self args kw func
               HPyMeth_NOARGS) w in
    ∃ r : HPy,
      trace done = [Obs (HPyMeth_noargs func ctx (_py2h self)) r]
      ∧ result done = Returned (_h2py r).
Proof.
  unfold ctx_CallRealFunctionFromTrampoline. rewrite Z.eqb_refl.
  split; [reflexivity |]. simpl. by eexists.
Qed.

(** C4, as the code has it.  Under SINGLE_ARG the dispatcher enters the
    native function once, with the context, the translated receiver and
    the translation of the [args] reference itself; it asks the host for
    no element of [args], and returns the translated result. *)
Theorem trampoline_O_passes_args_itself (w : world H) (ctx : HPyContext)
    (self args kw : PyObject) (func : Z) :
  HPyMeth_O ≠ HPyMeth_NOARGS →
  let done :=
    run H (ctx_CallRealFunctionFromTrampoline ctx self args kw func HPyMeth_O) w
  in
  ∃ r : HPy,
    trace done = [Obs (HPyMeth_o func ctx (_py2h self) (_py2h args)) r]
    ∧ result done = Returned (_h2py r).
Proof.
  intros Hne. unfold ctx_CallRealFunctionFromTrampoline.
  apply Z.eqb_neq in Hne. rewrite Hne, Z.eqb_refl.
  simpl. by eexists.
Qed.

(** C9.  A tag that is none of NO_ARGS, SINGLE_ARG and VAR_ARGS (so also
    the tag reserved for the keywords variant) takes the dispatcher to
    [abort()]: the process is aborted, nothing was asked of the host, no
    native function was entered and no value is returned. *)
Theorem trampoline_unsupported_tag_aborts (w : world H) (ctx : HPyContext)
    (self args kw : PyObject) (func : Z) (sig : Z) :
  sig ≠ HPyMeth_NOARGS →
  sig ≠ HPyMeth_O →
  sig ≠ HPyMeth_VARARGS →
  let done :=
    run H (ctx_CallRealFunctionFromTrampoline ctx self args kw func sig) w in
  result done = Aborted
  ∧ trace done = []
  ∧ natives_entered (trace done) = []
  ∧ ∀ v : PyObject, result done ≠ Returned v.
Proof.
  intros H1 H2 H3. unfold ctx_CallRealFunctionFromTrampoline.
  apply Z.eqb_neq in H1, H2, H3. rewrite H1, H2, H3.
  simpl. by repeat split.
Qed.

End Trampoline.

(** C4, as the claim reads.  The dispatcher is given the one-element
    container at address 22, whose element is the object at address 30.
    The native function is entered with the handle of 22, the [args]
    reference itself, and not with the handle of 30. *)
Lemma single_arg_is_not_taken_from_container :
  ¬ single_arg_taken_from_container (P := Toy.py39) Toy.host Toy.fresh Toy.ctx
      70 22 NULL 101.
Proof.
  intros (r & Hentered & _).
  apply (f_equal (map single_argument)) in Hentered.
  vm_compute in Hentered. discriminate Hentered.
Qed.

Lemma trampoline_O_passes_args_itself_witness :
  let done :=
    run Toy.host
      (ctx_CallRealFunctionFromTrampoline (P := Toy.py39) Toy.ctx
         70 22 NULL 101 4) Toy.fresh in
  ∃ r : HPy,
    trace done = [Obs (HPyMeth_o 101 Toy.ctx (mkHPy 70) (mkHPy 22)) r]
    ∧ result done = Returned (_i r).
Proof.
  apply (trampoline_O_passes_args_itself (P := Toy.py39) Toy.host Toy.fresh
           Toy.ctx 70 22 NULL 101).
  simpl. lia.
Defined.

Lemma trampoline_unsupported_tag_aborts_witness :
  let done :=
    run Toy.host
      (ctx_CallRealFunctionFromTrampoline (P := Toy.py39) Toy.ctx
         70 20 NULL 101 2) Toy.fresh in
  result done = Aborted
  ∧ trace done = []
  ∧ natives_entered (trace done) = []
  ∧ ∀ v : PyObject, result done ≠ Returned v.
Proof.
  apply (trampoline_unsupported_tag_aborts (P := Toy.py39) Toy.host Toy.fresh
           Toy.ctx 70 20 NULL 101 2); simpl; lia.
Defined.

(** * Further properties of the two files *)

(** ** The VAR_ARGS case of the dispatcher *)

Section TrampolineVarargs.
Context {P : Platform} (H : Host).

(** The loop of lines 22-24: with [count] cells still to fill and [pre]
    already filled, it reads the elements from position [i] on, in order,
    and fills the rest of the array with their handles. *)
Lemma varargs_loop (args : PyObject) (count : nat) :
  ∀ (i : nat) (pre : list HPy) (w : world H),
    length pre = i →
    ∃ (items : list PyObject) (w' : world H),
      length items = count
      ∧ run H
          (for_loop count i
             (λ i h_args,
                item ← call (PyTuple_GET_ITEM args (Z.of_nat i));
                store h_args i (_py2h item))
             (pre ++ replicate count (mkHPy uninit)))
          w
        = {| result := Returned (pre ++ (_py2h <$> items));
             trace := item_reads args i items;
             final := w' |}.
Proof.
  induction count as [| c IH]; intros i pre w Hpre.
  - exists [], w. split; [done |]. simpl. by rewrite !app_nil_r.
  - set (e := PyTuple_GET_ITEM args (Z.of_nat i)).
    destruct (IH (Datatypes.S i) (pre ++ [_py2h (answer H e w)]) (after H e w))
      as (items & w' & Hlen & Hrun).
    { rewrite length_app. simpl. lia. }
    exists (answer H e w :: items), w'. split; [simpl; lia |].
    simpl. unfold store.
    rewrite decide_True by (rewrite length_app; simpl; lia). simpl.
    rewrite insert_app_r_alt by lia.
    replace (i - length pre)%nat with 0%nat by lia. simpl.
    rewrite cons_middle, app_assoc.
    fold e. unfold store in Hrun. simpl in Hrun. rewrite Hrun. simpl.
    by rewrite <- app_assoc.
Qed.

(** X1.  Under VAR_ARGS, for a container that the host says has [nargs]
    elements, the dispatcher reads the elements 0 .. nargs-1 in order,
    enters the native function once with the context, the translated
    receiver, the array of the translated elements in the same order and
    the count [nargs], and returns the translated result.  For the empty
    container no element is read and the array is empty. *)
Theorem trampoline_VARARGS_passes_items_in_order (w : world H)
    (ctx : HPyContext) (self args kw : PyObject) (func : Z) :
  HPyMeth_VARARGS ≠ HPyMeth_NOARGS →
  HPyMeth_VARARGS ≠ HPyMeth_O →
  let nargs := answer H (PyTuple_GET_SIZE args) w in
  0 ≤ nargs →
  nargs * sizeof_HPy < 2 ^ 64 →
  let done :=
    run H (ctx_CallRealFunctionFromTrampoline ctx self args kw func
             HPyMeth_VARARGS) w in
  ∃ (items : list PyObject) (r : HPy),
    length items = Z.to_nat nargs
    ∧ trace done
      = Obs (PyTuple_GET_SIZE args) nargs
        :: item_reads args 0 items
        ++ [Obs (HPyMeth_varargs func ctx (_py2h self) (_py2h <$> items) nargs) r]
    ∧ result done = Returned (_h2py r).
Proof.
  intros Hne1 Hne2 nargs Hpos Hfit done. subst done.
  unfold ctx_CallRealFunctionFromTrampoline.
  apply Z.eqb_neq in Hne1, Hne2. rewrite Hne1, Hne2, Z.eqb_refl.
  change (run H (call (PyTuple_GET_SIZE args) ≫= ?f) w)
    with (run H (Vis (PyTuple_GET_SIZE args) f) w).
  simpl. fold nargs.
  replace (alloca mkHPy sizeof_HPy (size_t_wrap (nargs * sizeof_HPy)))
    with (replicate (Z.to_nat nargs) (mkHPy uninit)).
  2: { unfold alloca, size_t_wrap.
       rewrite Z.mod_small by (unfold sizeof_HPy in *; lia).
       by rewrite Z.div_mul. }
  destruct (varargs_loop args (Z.to_nat nargs) 0%nat []
              (after H (PyTuple_GET_SIZE args) w) eq_refl)
    as (items & w' & Hlen & Hrun).
  rewrite run_bind. simpl in Hrun. rewrite Hrun.
  unfold run_then. simpl.
  by exists items, (answer H
     (HPyMeth_varargs func ctx (_py2h self) (_py2h <$> items) nargs) w').
Qed.

End TrampolineVarargs.

Lemma trampoline_VARARGS_passes_items_in_order_witness :
  let done :=
    run Toy.host
      (ctx_CallRealFunctionFromTrampoline (P := Toy.py39) Toy.ctx
         70 20 NULL 102 1) Toy.fresh in
  ∃ (items : list PyObject) (r : HPy),
    length items = 2%nat
    ∧ trace done
      = Obs (PyTuple_GET_SIZE 20) 2
        :: item_reads 20 0 items
        ++ [Obs (HPyMeth_varargs 102 Toy.ctx (mkHPy 70) (mkHPy <$> items) 2) r]
    ∧ result done = Returned (_i r).
Proof.
  apply (trampoline_VARARGS_passes_items_in_order (P := Toy.py39) Toy.host
           Toy.fresh Toy.ctx 70 20 NULL 102).
  - simpl. lia.
  - simpl. lia.
  - vm_compute. discriminate.
  - reflexivity.
Defined.

(** ** Staging, beyond the well-formed call *)

Section StagingEdges.
Context {P : Platform} (H : Host).

(** The loop of lines 61-63 on an array that ends before the count is
    reached: the read of the first missing element is outside the array. *)
Lemma staging_loop_short (h_args : list HPy) (count : nat) :
  ∀ (i : nat) (pre : list PyObject),
    length pre = i →
    (i ≤ length h_args)%nat →
    (length h_args < i + count)%nat →
    for_loop count i
      (λ i args,
         match h_args !! i with
         | Some h => store args i (_h2py h)
         | None => UB
         end)
      (pre ++ replicate count uninit)
    = UB.
Proof.
  induction count as [| c IH]; intros i pre Hpre Hle Hlt; [lia |].
  simpl. destruct (h_args !! i) as [h |] eqn:Hh; [| done].
  apply lookup_lt_Some in Hh.
  unfold store. rewrite decide_True by (rewrite length_app; simpl; lia).
  simpl. rewrite insert_app_r_alt by lia.
  replace (i - length pre)%nat with 0%nat by lia. simpl.
  rewrite cons_middle, app_assoc.
  apply IH; [rewrite length_app; simpl; lia | lia | lia].
Qed.

(** The header of lines 49-58 on a call whose assertions hold or are
    compiled out: it asks the host about [h_kwnames] only, and leaves
    [cells_to_fill] cells to fill. *)
Lemma run_stage_arguments_header (w : world H) (h_args : list HPy)
    (nargs : Z) (h_kwnames : HPy) :
  (HPy_IsNull h_kwnames = false →
     NDEBUG = true
     ∨ (keyword_tuple H w h_kwnames
        ∧ nargs ≤ size_t_wrap (nargs + keyword_count H w h_kwnames))) →
  ∃ (pre : list obs) (w' : world H),
    calls_made pre = [] ∧ lookups pre = [] ∧
    run H (stage_arguments h_args nargs h_kwnames) w
    = run_then H {| result := Returned (); trace := pre; final := w' |}
        (λ _ w'',
           run H
             (for_loop (Z.to_nat (cells_to_fill H w nargs h_kwnames)) 0%nat
                (λ i args,
                   match h_args !! i with
                   | Some h => store args i (_h2py h)
                   | None => UB
                   end)
                (alloca id sizeof_PyObject_ptr
                   (size_t_wrap (cells_to_fill H w nargs h_kwnames
                                 * sizeof_PyObject_ptr)))
              ≫= λ args, mret (kwnames_of h_kwnames, args))
             w'').
Proof.
  intros Hshape.
  unfold stage_arguments, cells_to_fill, kwnames_of, keyword_count in *.
  destruct (HPy_IsNull h_kwnames) eqn:Hnull.
  - exists [], w. split; [done |]. split; [done |].
    unfold run_then. simpl.
    by destruct (run H _ w).
  - unfold assert, keyword_tuple in *.
    destruct NDEBUG eqn:Hndebug.
    + exists [Obs (PyTuple_GET_SIZE (_h2py h_kwnames))
                (answer H (PyTuple_GET_SIZE (_h2py h_kwnames)) w)],
             (after H (PyTuple_GET_SIZE (_h2py h_kwnames)) w).
      split; [done |]. split; [done |].
      unfold run_then. simpl. reflexivity.
    + destruct (Hshape eq_refl) as [? | ((Hk & Htup) & Hge)]; [done |].
      set (k := _h2py h_kwnames) in *.
      assert (Hk' : (k =? NULL) = false) by by apply Z.eqb_neq.
      assert (Htup' : c_not (answer H (PyTuple_Check k) w) = false)
        by by apply Z.eqb_neq.
      exists [Obs (PyTuple_Check k) (answer H (PyTuple_Check k) w);
              Obs (PyTuple_GET_SIZE k)
                (answer H (PyTuple_GET_SIZE k) (after H (PyTuple_Check k) w))],
             (after H (PyTuple_GET_SIZE k) (after H (PyTuple_Check k) w)).
      split; [done |]. split; [done |].
      unfold run_then. simpl. rewrite Hk'. simpl. rewrite Htup'. simpl.
      match goal with
      | |- context [?a >=? ?b] =>
          replace (a >=? b) with true
            by (symmetry; rewrite Z.geb_leb; by apply Z.leb_le)
      end.
      simpl. reflexivity.
Qed.

(** Staging whenever the header lets the call through: the buffer holds
    the translations of the first [cells_to_fill] handles of [h_args]. *)
Lemma run_stage_arguments_fills (w : world H) (h_args : list HPy)
    (nargs : Z) (h_kwnames : HPy) :
  (HPy_IsNull h_kwnames = false →
     NDEBUG = true
     ∨ (keyword_tuple H w h_kwnames
        ∧ nargs ≤ size_t_wrap (nargs + keyword_count H w h_kwnames))) →
  let cells := cells_to_fill H w nargs h_kwnames in
  0 ≤ cells →
  (Z.to_nat cells ≤ length h_args)%nat →
  Z.of_nat (length h_args) * sizeof_HPy < 2 ^ 64 →
  let staged := run H (stage_arguments h_args nargs h_kwnames) w in
  result staged
    = Returned (kwnames_of h_kwnames, _h2py <$> take (Z.to_nat cells) h_args)
  ∧ calls_made (trace staged) = []
  ∧ lookups (trace staged) = [].
Proof.
  intros Hshape cells Hcells Hlen Hmem staged. subst staged.
  destruct (run_stage_arguments_header w h_args nargs h_kwnames Hshape)
    as (pre & w' & Hcalls & Hlookups & Hrun).
  fold cells in Hrun. rewrite Hrun. clear Hrun.
  rewrite alloca_cells by (unfold sizeof_PyObject_ptr, sizeof_HPy in *; lia).
  pose proof (staging_loop h_args (Z.to_nat cells) 0%nat [] eq_refl Hlen)
    as Hloop.
  rewrite !app_nil_l, drop_0 in Hloop. rewrite Hloop.
  unfold run_then. simpl. by rewrite app_nil_r.
Qed.

(** Staging from an array that is too short leaves the array before any
    call or lookup. *)
Lemma run_stage_arguments_short (w : world H) (h_args : list HPy)
    (nargs : Z) (h_kwnames : HPy) :
  0 ≤ nargs →
  (HPy_IsNull h_kwnames = false →
     keyword_tuple H w h_kwnames
     ∧ 0 ≤ keyword_count H w h_kwnames
     ∧ nargs + keyword_count H w h_kwnames < 2 ^ 64) →
  let n := staged_count H w nargs h_kwnames in
  (length h_args < Z.to_nat n)%nat →
  n * sizeof_PyObject_ptr < 2 ^ 64 →
  let staged := run H (stage_arguments h_args nargs h_kwnames) w in
  result staged = Undefined
  ∧ calls_made (trace staged) = []
  ∧ lookups (trace staged) = [].
Proof.
  intros Hn Hkw n Hshort Hfit staged. subst staged.
  assert (Hcells : cells_to_fill H w nargs h_kwnames = n).
  { unfold cells_to_fill, n, staged_count.
    destruct (HPy_IsNull h_kwnames); [done |].
    destruct (Hkw eq_refl) as (_ & HK & Hsum).
    unfold size_t_wrap. rewrite Z.mod_small; lia. }
  destruct (run_stage_arguments_header w h_args nargs h_kwnames)
    as (pre & w' & Hcalls & Hlookups & Hrun).
  { intros Hnull. right. destruct (Hkw Hnull) as (Htup & HK & Hsum).
    split; [done |]. unfold size_t_wrap. rewrite Z.mod_small; lia. }
  rewrite Hrun, Hcells. clear Hrun.
  rewrite alloca_cells by lia.
  pose proof (staging_loop_short h_args (Z.to_nat n) 0%nat [] eq_refl)
    as Hloop.
  rewrite app_nil_l in Hloop. rewrite Hloop by lia.
  unfold run_then. simpl. by rewrite app_nil_r.
Qed.

(** Staging in a build with assertions, when one of them fails: the
    process is aborted before any call or lookup. *)
Lemma run_stage_arguments_aborts (w : world H) (h_args : list HPy)
    (nargs : Z) (h_kwnames : HPy) :
  NDEBUG = false →
  HPy_IsNull h_kwnames = false →
  _h2py h_kwnames = NULL
  ∨ answer H (PyTuple_Check (_h2py h_kwnames)) w = 0
  ∨ size_t_wrap (nargs + keyword_count H w h_kwnames) < nargs →
  let staged := run H (stage_arguments h_args nargs h_kwnames) w in
  result staged = Aborted
  ∧ calls_made (trace staged) = []
  ∧ lookups (trace staged) = [].
Proof.
  intros Hdebug Hnull Hfail staged. subst staged.
  unfold stage_arguments, assert, keyword_count in *.
  rewrite Hnull, Hdebug in *. simpl.
  destruct (_h2py h_kwnames =? NULL) eqn:Hk; simpl; [done |].
  destruct (c_not (answer H (PyTuple_Check (_h2py h_kwnames)) w)) eqn:Htup;
    simpl; [done |].
  destruct Hfail as [Hnul | [Hnot | Hwrap]].
  - by apply Z.eqb_neq in Hk.
  - unfold c_not in Htup. by apply Z.eqb_neq in Htup.
  - match goal with
    | |- context [?a >=? ?b] =>
        replace (a >=? b) with false
          by (symmetry; rewrite Z.geb_leb; apply Z.leb_gt; lia)
    end.
    by simpl.
Qed.

End StagingEdges.

(** ** Vector Call and Call-Method-By-Name at their edges *)

Section VectorCallEdges.
Context {P : Platform} (H : Host).

(** X2.  On a host from 3.9 on, Call-Method-By-Name of a well-formed call
    stages the buffer and then runs [PyObject_VectorcallMethod], once, on
    the translated name, the whole buffer, the count [nargs] and the
    keyword names; it does no attribute lookup of its own, and returns the
    translated result. *)
Theorem ctx_CallMethod_runs_vectorcall_method (w : world H) (ctx : HPyContext)
    (h_name : HPy) (h_args : list HPy) (nargs : Z) (h_kwnames : HPy) :
  0x03090000 ≤ PY_VERSION_HEX →
  well_formed_call H w h_args nargs h_kwnames →
  let n := Z.to_nat (staged_count H w nargs h_kwnames) in
  let buf := _h2py <$> take n h_args in
  let done := run H (ctx_CallMethod ctx h_name h_args nargs h_kwnames) w in
  ∃ (pre : list obs) (r : PyObject),
    calls_made pre = []
    ∧ lookups (trace done) = []
    ∧ trace done
      = pre ++ [Obs (PyObject_VectorcallMethod (_h2py h_name) buf nargs
                       (kwnames_of h_kwnames)) r]
    ∧ result done = Returned (_py2h r).
Proof.
  intros Hver (Hn & Hkw & Hlen & Hmem) n buf done.
  assert (Hcells : cells_to_fill H w nargs h_kwnames
                   = staged_count H w nargs h_kwnames).
  { unfold cells_to_fill, staged_count.
    destruct (HPy_IsNull h_kwnames); [done |].
    destruct (Hkw eq_refl) as (_ & HK & Hsum).
    unfold size_t_wrap. rewrite Z.mod_small; lia. }
  destruct (run_stage_arguments_fills H w h_args nargs h_kwnames)
    as (Hres & Hcalls & Hlookups).
  { intros Hnull. right. destruct (Hkw Hnull) as (Htup & HK & Hsum).
    split; [done |]. unfold size_t_wrap. rewrite Z.mod_small; lia. }
  { rewrite Hcells. unfold staged_count.
    destruct (HPy_IsNull h_kwnames); [lia |].
    destruct (Hkw eq_refl) as (_ & HK & _). lia. }
  { by rewrite Hcells. }
  { done. }
  rewrite Hcells in Hres. fold n buf in Hres.
  subst done. unfold ctx_CallMethod.
  rewrite run_bind. unfold run_then. rewrite Hres.
  replace (PY_VERSION_HEX <? 0x03090000) with false
    by (symmetry; apply Z.ltb_ge; lia).
  simpl. eexists _, _. split; [exact Hcalls |].
  split; [| split; reflexivity].
  unfold lookups in *. rewrite List.filter_app, Hlookups. done.
Qed.

(** X3.  In a build with assertions, when [h_kwnames] is a tuple whose
    length makes [nargs + K] wrap around 2^64, Vector Call and
    Call-Method-By-Name abort the process: no call primitive is run and
    no attribute is looked up. *)
Theorem vector_calls_abort_on_overflow (w : world H) (ctx : HPyContext)
    (h_callable h_name : HPy) (h_args : list HPy) (nargs : Z)
    (h_kwnames : HPy) :
  NDEBUG = false →
  HPy_IsNull h_kwnames = false →
  let K := keyword_count H w h_kwnames in
  0 ≤ nargs < 2 ^ 64 →
  0 ≤ K < 2 ^ 64 →
  2 ^ 64 ≤ nargs + K →
  let called := run H (ctx_Call ctx h_callable h_args nargs h_kwnames) w in
  let method := run H (ctx_CallMethod ctx h_name h_args nargs h_kwnames) w in
  result called = Aborted
  ∧ calls_made (trace called) = []
  ∧ result method = Aborted
  ∧ calls_made (trace method) = []
  ∧ lookups (trace method) = [].
Proof.
  intros Hdebug Hnull K Hn HK Hover called method.
  destruct (run_stage_arguments_aborts H w h_args nargs h_kwnames Hdebug Hnull)
    as (Hres & Hcalls & Hlookups).
  { right. right. fold K. unfold size_t_wrap.
    rewrite <- (Z_mod_plus_full _ (-1)). rewrite Z.mod_small; lia. }
  subst called method. unfold ctx_Call, ctx_CallMethod.
  rewrite !run_bind. unfold run_then. rewrite Hres. by simpl.
Qed.

(** X4.  In a build with assertions, when [h_kwnames] is not null and
    translates to NULL or is not a tuple, Vector Call and
    Call-Method-By-Name abort the process: no call primitive is run and
    no attribute is looked up. *)
Theorem vector_calls_abort_on_bad_kwnames (w : world H) (ctx : HPyContext)
    (h_callable h_name : HPy) (h_args : list HPy) (nargs : Z)
    (h_kwnames : HPy) :
  NDEBUG = false →
  HPy_IsNull h_kwnames = false →
  _h2py h_kwnames = NULL
  ∨ answer H (PyTuple_Check (_h2py h_kwnames)) w = 0 →
  let called := run H (ctx_Call ctx h_callable h_args nargs h_kwnames) w in
  let method := run H (ctx_CallMethod ctx h_name h_args nargs h_kwnames) w in
  result called = Aborted
  ∧ calls_made (trace called) = []
  ∧ result method = Aborted
  ∧ calls_made (trace method) = []
  ∧ lookups (trace method) = [].
Proof.
  intros Hdebug Hnull Hbad called method.
  destruct (run_stage_arguments_aborts H w h_args nargs h_kwnames Hdebug Hnull)
    as (Hres & Hcalls & Hlookups).
  { destruct Hbad; [by left | right; by left]. }
  subst called method. unfold ctx_Call, ctx_CallMethod.
  rewrite !run_bind. unfold run_then. rewrite Hres. by simpl.
Qed.

(** X5.  In a build without assertions nothing guards the sum: when
    [nargs + K] wraps around 2^64, Vector Call stages only
    [nargs + K - 2^64] references, fewer than [nargs], and still runs the
    vector-call primitive on that buffer with the count [nargs]. *)
Theorem ctx_Call_release_build_wraps (w : world H) (ctx : HPyContext)
    (h_callable : HPy) (h_args : list HPy) (nargs : Z) (h_kwnames : HPy) :
  NDEBUG = true →
  HPy_IsNull h_kwnames = false →
  let K := keyword_count H w h_kwnames in
  0 ≤ nargs < 2 ^ 64 →
  0 ≤ K < 2 ^ 64 →
  2 ^ 64 ≤ nargs + K →
  let m := nargs + K - 2 ^ 64 in
  (Z.to_nat m ≤ length h_args)%nat →
  Z.of_nat (length h_args) * sizeof_HPy < 2 ^ 64 →
  let done := run H (ctx_Call ctx h_callable h_args nargs h_kwnames) w in
  ∃ (buf : list PyObject) (pre : list obs) (r : PyObject),
    length buf = Z.to_nat m
    ∧ m < nargs
    ∧ calls_made pre = []
    ∧ trace done
      = pre ++ [vector_call h_callable buf nargs (_h2py h_kwnames) r]
    ∧ result done = Returned (_py2h r).
Proof.
  intros Hrelease Hnull K Hn HK Hover m Hlen Hmem done.
  assert (Hcells : cells_to_fill H w nargs h_kwnames = m).
  { unfold cells_to_fill. rewrite Hnull. fold K. unfold size_t_wrap.
    rewrite <- (Z_mod_plus_full _ (-1)). rewrite Z.mod_small; lia. }
  destruct (run_stage_arguments_fills H w h_args nargs h_kwnames)
    as (Hres & Hcalls & _).
  { intros _. by left. }
  { rewrite Hcells. lia. }
  { by rewrite Hcells. }
  { done. }
  rewrite Hcells in Hres. unfold kwnames_of in Hres. rewrite Hnull in Hres.
  subst done. unfold ctx_Call, vector_call.
  rewrite run_bind. unfold run_then. rewrite Hres.
  set (staged := run H (stage_arguments h_args nargs h_kwnames) w) in *.
  set (buf := _h2py <$> take (Z.to_nat m) h_args).
  exists buf, (trace staged).
  exists (answer H
            (if PY_VERSION_HEX <? 0x03090000 as legacy
               return hostE PyObject
             then _PyObject_Vectorcall (_h2py callable) buf nargs
                    (_h2py h_kwnames)
             else PyObject_Vectorcall (_h2py h_callable) buf nargs
                    (_h2py h_kwnames))
            (final staged)).
  split; [| split; [lia | split; [done |]]].
  - unfold buf. rewrite length_fmap, length_take. lia.
  - destruct (PY_VERSION_HEX <? 0x03090000); by simpl.
Qed.

(** X6.  Vector Call and Call-Method-By-Name read [N] handles of [h_args]
    (N + K with keyword names) without knowing its length: on an array
    that holds fewer, the read runs past the array before any call
    primitive is run or any attribute looked up. *)
Theorem vector_calls_read_past_a_short_array (w : world H) (ctx : HPyContext)
    (h_callable h_name : HPy) (h_args : list HPy) (nargs : Z)
    (h_kwnames : HPy) :
  0 ≤ nargs →
  (HPy_IsNull h_kwnames = false →
     keyword_tuple H w h_kwnames
     ∧ 0 ≤ keyword_count H w h_kwnames
     ∧ nargs + keyword_count H w h_kwnames < 2 ^ 64) →
  let n := staged_count H w nargs h_kwnames in
  (length h_args < Z.to_nat n)%nat →
  n * sizeof_PyObject_ptr < 2 ^ 64 →
  let called := run H (ctx_Call ctx h_callable h_args nargs h_kwnames) w in
  let method := run H (ctx_CallMethod ctx h_name h_args nargs h_kwnames) w in
  result called = Undefined
  ∧ calls_made (trace called) = []
  ∧ result method = Undefined
  ∧ calls_made (trace method) = []
  ∧ lookups (trace method) = [].
Proof.
  intros Hn Hkw n Hshort Hfit called method.
  destruct (run_stage_arguments_short H w h_args nargs h_kwnames
              Hn Hkw Hshort Hfit) as (Hres & Hcalls & Hlookups).
  subst called method. unfold ctx_Call, ctx_CallMethod.
  rewrite !run_bind. unfold run_then. rewrite Hres. by simpl.
Qed.

(** X7.  On a host older than 3.9, Call-Method-By-Name of a well-formed
    call that stages nothing (no receiver: [nargs] is 0 and there are no
    keyword values) reads slot 0 of an empty buffer: it leaves defined
    behaviour before any attribute is looked up or anything called. *)
Theorem ctx_CallMethod_fallback_without_receiver (w : world H)
    (ctx : HPyContext) (h_name : HPy) (h_args : list HPy) (nargs : Z)
    (h_kwnames : HPy) :
  PY_VERSION_HEX < 0x03090000 →
  well_formed_call H w h_args nargs h_kwnames →
  staged_count H w nargs h_kwnames = 0 →
  let done := run H (ctx_CallMethod ctx h_name h_args nargs h_kwnames) w in
  result done = Undefined
  ∧ calls_made (trace done) = []
  ∧ lookups (trace done) = [].
Proof.
  intros Hver (Hn & Hkw & Hlen & Hmem) Hzero done.
  assert (Hcells : cells_to_fill H w nargs h_kwnames = 0).
  { rewrite <- Hzero. unfold cells_to_fill, staged_count.
    destruct (HPy_IsNull h_kwnames); [done |].
    destruct (Hkw eq_refl) as (_ & HK & Hsum).
    unfold size_t_wrap. rewrite Z.mod_small; lia. }
  destruct (run_stage_arguments_fills H w h_args nargs h_kwnames)
    as (Hres & Hcalls & Hlookups).
  { intros Hnull. right. destruct (Hkw Hnull) as (Htup & HK & Hsum).
    split; [done |]. unfold size_t_wrap. rewrite Z.mod_small; lia. }
  { by rewrite Hcells. }
  { rewrite Hcells. simpl. lia. }
  { done. }
  rewrite Hcells in Hres. simpl in Hres.
  subst done. unfold ctx_CallMethod.
  rewrite run_bind. unfold run_then. rewrite Hres.
  apply Z.ltb_lt in Hver. rewrite Hver. simpl.
  by rewrite app_nil_r.
Qed.

End VectorCallEdges.

Lemma ctx_CallMethod_runs_vectorcall_method_witness :
  let done :=
    run Toy.host
      (ctx_CallMethod (P := Toy.py39) Toy.ctx (mkHPy 41)
         [mkHPy 70; mkHPy 30] 1 (mkHPy 23))
      Toy.fresh in
  ∃ (pre : list obs) (r : PyObject),
    calls_made pre = []
    ∧ lookups (trace done) = []
    ∧ trace done
      = pre ++ [Obs (PyObject_VectorcallMethod 41 [70; 30] 1 23) r]
    ∧ result done = Returned (mkHPy r).
Proof.
  apply (ctx_CallMethod_runs_vectorcall_method (P := Toy.py39) Toy.host
           Toy.fresh Toy.ctx (mkHPy 41) [mkHPy 70; mkHPy 30] 1 (mkHPy 23)).
  - vm_compute. discriminate.
  - split; [lia |]. split; [| split].
    + intros _. split; [split; discriminate |].
      split; vm_compute; [discriminate | reflexivity].
    + vm_compute. lia.
    + reflexivity.
Defined.

Lemma vector_calls_abort_on_overflow_witness :
  let called :=
    run Toy.host
      (ctx_Call (P := Toy.py39) Toy.ctx (mkHPy 10) [mkHPy 70]
         18446744073709551615 (mkHPy 23))
      Toy.fresh in
  let method :=
    run Toy.host
      (ctx_CallMethod (P := Toy.py39) Toy.ctx (mkHPy 41) [mkHPy 70]
         18446744073709551615 (mkHPy 23))
      Toy.fresh in
  result called = Aborted
  ∧ calls_made (trace called) = []
  ∧ result method = Aborted
  ∧ calls_made (trace method) = []
  ∧ lookups (trace method) = [].
Proof.
  apply (vector_calls_abort_on_overflow (P := Toy.py39) Toy.host Toy.fresh
           Toy.ctx (mkHPy 10) (mkHPy 41) [mkHPy 70] 18446744073709551615
           (mkHPy 23)).
  - reflexivity.
  - reflexivity.
  - lia.
  - vm_compute. split; [discriminate | reflexivity].
  - vm_compute. discriminate.
Defined.

Lemma vector_calls_abort_on_bad_kwnames_witness :
  let called :=
    run Toy.host
      (ctx_Call (P := Toy.py39) Toy.ctx (mkHPy 10) [mkHPy 70] 1 (mkHPy 60))
      Toy.fresh in
  let method :=
    run Toy.host
      (ctx_CallMethod (P := Toy.py39) Toy.ctx (mkHPy 41) [mkHPy 70] 1
         (mkHPy 60))
      Toy.fresh in
  result called = Aborted
  ∧ calls_made (trace called) = []
  ∧ result method = Aborted
  ∧ calls_made (trace method) = []
  ∧ lookups (trace method) = [].
Proof.
  apply (vector_calls_abort_on_bad_kwnames (P := Toy.py39) Toy.host Toy.fresh
           Toy.ctx (mkHPy 10) (mkHPy 41) [mkHPy 70] 1 (mkHPy 60)).
  - reflexivity.
  - reflexivity.
  - right. reflexivity.
Defined.

Lemma ctx_Call_release_build_wraps_witness :
  let done :=
    run Toy.host
      (ctx_Call (P := toy_py39_release) Toy.ctx (mkHPy 10) [mkHPy 70]
         18446744073709551615 (mkHPy 23))
      Toy.fresh in
  ∃ (buf : list PyObject) (pre : list obs) (r : PyObject),
    length buf = 0%nat
    ∧ 0 < 18446744073709551615
    ∧ calls_made pre = []
    ∧ trace done
      = pre ++ [Obs (PyObject_Vectorcall 10 buf 18446744073709551615 23) r]
    ∧ result done = Returned (mkHPy r).
Proof.
  apply (ctx_Call_release_build_wraps (P := toy_py39_release) Toy.host
           Toy.fresh Toy.ctx (mkHPy 10) [mkHPy 70] 18446744073709551615
           (mkHPy 23)).
  - reflexivity.
  - reflexivity.
  - lia.
  - vm_compute. split; [discriminate | reflexivity].
  - vm_compute. discriminate.
  - vm_compute. lia.
  - reflexivity.
Defined.

Lemma vector_calls_read_past_a_short_array_witness :
  let called :=
    run Toy.host
      (ctx_Call (P := Toy.py39) Toy.ctx (mkHPy 10) [mkHPy 30; mkHPy 31] 2
         (mkHPy 23))
      Toy.fresh in
  let method :=
    run Toy.host
      (ctx_CallMethod (P := Toy.py39) Toy.ctx (mkHPy 41)
         [mkHPy 30; mkHPy 31] 2 (mkHPy 23))
      Toy.fresh in
  result called = Undefined
  ∧ calls_made (trace called) = []
  ∧ result method = Undefined
  ∧ calls_made (trace method) = []
  ∧ lookups (trace method) = [].
Proof.
  apply (vector_calls_read_past_a_short_array (P := Toy.py39) Toy.host
           Toy.fresh Toy.ctx (mkHPy 10) (mkHPy 41) [mkHPy 30; mkHPy 31] 2
           (mkHPy 23)).
  - lia.
  - intros _. split; [split; discriminate |].
    split; vm_compute; [discriminate | reflexivity].
  - vm_compute. lia.
  - reflexivity.
Defined.

Lemma ctx_CallMethod_fallback_without_receiver_witness :
  let done :=
    run Toy.host
      (ctx_CallMethod (P := Toy.py38) Toy.ctx (mkHPy 41) [] 0 HPy_NULL)
      Toy.fresh in
  result done = Undefined
  ∧ calls_made (trace done) = []
  ∧ lookups (trace done) = [].
Proof.
  apply (ctx_CallMethod_fallback_without_receiver (P := Toy.py38) Toy.host
           Toy.fresh Toy.ctx (mkHPy 41) [] 0 HPy_NULL).
  - reflexivity.
  - split; [lia |]. split; [discriminate |]. split; [vm_compute; lia |].
    reflexivity.
  - reflexivity.
Defined.

(** ** Tuple/Dict Call: which error, and what is closed *)

Section TupleDictCallEdges.
Context {P : Platform} (H : Host).

(** X8.  [args] is judged first.  When [args] is neither null nor
    tuple-typed, Tuple/Dict Call asks the host about [args] and nothing
    else, reports that [args] must be a tuple or null, and returns the
    null handle: [kw] is not examined, whatever it is. *)
Theorem ctx_CallTupleDict_reports_args_first (w : world H) (ctx : HPyContext)
    (callable args kw : HPy) :
  HPy_IsNull args = false →
  tuple_typed H ctx args w = false →
  let done := run H (ctx_CallTupleDict ctx callable args kw) w in
  trace done
  = [Obs (HPyTuple_Check ctx args) 0;
     Obs (HPyErr_SetString ctx (h_TypeError ctx)
            "HPy_CallTupleDict requires args to be a tuple or null handle") ()]
  ∧ result done = Returned HPy_NULL.
Proof.
  intros Hargs Htuple done. subst done.
  unfold ctx_CallTupleDict, and_then, tuple_typed in *.
  rewrite Hargs. simpl.
  apply negb_false_iff in Htuple. rewrite Htuple. simpl.
  unfold c_not in Htuple. apply Z.eqb_eq in Htuple. rewrite Htuple.
  split; [| done].
  by destruct (answer H (HPyErr_SetString _ _ _) _).
Qed.

(** X9.  When [args] is accepted (null or tuple-typed) and [kw] is
    neither null nor dict-typed, Tuple/Dict Call reports that [kw] must be
    a dict or null, right after the check of [kw], and returns the null
    handle. *)
Theorem ctx_CallTupleDict_reports_kw (w : world H) (ctx : HPyContext)
    (callable args kw : HPy) :
  HPy_IsNull args = true ∨ tuple_typed H ctx args w = true →
  HPy_IsNull kw = false →
  dict_typed H ctx args kw w = false →
  let done := run H (ctx_CallTupleDict ctx callable args kw) w in
  trace done
  = (if HPy_IsNull args then []
     else [Obs (HPyTuple_Check ctx args)
             (answer H (HPyTuple_Check ctx args) w)])
    ++ [Obs (HPyDict_Check ctx kw) 0;
        Obs (HPyErr_SetString ctx (h_TypeError ctx)
               "HPy_CallTupleDict requires kw to be a dict or null handle") ()]
  ∧ result done = Returned HPy_NULL.
Proof.
  intros Hargs Hkw Hdict done. subst done.
  unfold ctx_CallTupleDict, and_then, tuple_typed, dict_typed,
    after_args_check in *.
  rewrite Hkw.
  apply negb_false_iff in Hdict.
  destruct (HPy_IsNull args) eqn:Hnull; simpl.
  - rewrite Hdict. simpl.
    unfold c_not in Hdict. apply Z.eqb_eq in Hdict. rewrite Hdict.
    split; [| done].
    by destruct (answer H (HPyErr_SetString _ _ _) _).
  - destruct Hargs as [? | Htuple]; [done |].
    apply negb_true_iff in Htuple. rewrite Htuple. simpl.
    rewrite Hdict. simpl.
    unfold c_not in Hdict. apply Z.eqb_eq in Hdict. rewrite Hdict.
    split; [| done].
    by destruct (answer H (HPyErr_SetString _ _ _) _).
Qed.


End TupleDictCallEdges.

Lemma ctx_CallTupleDict_reports_args_first_witness :
  let done :=
    run Toy.host
      (ctx_CallTupleDict (P := Toy.py39) Toy.ctx (mkHPy 10) (mkHPy 60)
         (mkHPy 60))
      Toy.fresh in
  trace done
  = [Obs (HPyTuple_Check Toy.ctx (mkHPy 60)) 0;
     Obs (HPyErr_SetString Toy.ctx (mkHPy 90)
            "HPy_CallTupleDict requires args to be a tuple or null handle") ()]
  ∧ result done = Returned HPy_NULL.
Proof.
  apply (ctx_CallTupleDict_reports_args_first (P := Toy.py39) Toy.host
           Toy.fresh Toy.ctx (mkHPy 10) (mkHPy 60) (mkHPy 60)); reflexivity.
Defined.

Lemma ctx_CallTupleDict_reports_kw_witness :
  let done :=
    run Toy.host
      (ctx_CallTupleDict (P := Toy.py39) Toy.ctx (mkHPy 10) (mkHPy 20)
         (mkHPy 60))
      Toy.fresh in
  trace done
  = [Obs (HPyTuple_Check Toy.ctx (mkHPy 20)) 1;
     Obs (HPyDict_Check Toy.ctx (mkHPy 60)) 0;
     Obs (HPyErr_SetString Toy.ctx (mkHPy 90)
            "HPy_CallTupleDict requires kw to be a dict or null handle") ()]
  ∧ result done = Returned HPy_NULL.
Proof.
  apply (ctx_CallTupleDict_reports_kw (P := Toy.py39) Toy.host
           Toy.fresh Toy.ctx (mkHPy 10) (mkHPy 20) (mkHPy 60)).
  - right. reflexivity.
  - reflexivity.
  - reflexivity.
Defined.
